(** * rn-expo-ts-app: the Greeting view and the root view

    A shallow embedding of [src/components/Greeting.tsx] and [App.tsx].

    The two components are functions that build a React element tree.  The
    tree is kept as the source writes it: host elements ([View], [Text],
    [StatusBar]) with their [style] prop and their children, and the
    component element [<Greeting .../>] with its props.  The children of a
    [Text] are the JSX children after JSX's whitespace rule has been applied:
    string literals and the values of the [{...}] expressions, in order.

    Numbers: the source types [birthYear] as [number], an IEEE double, and
    the specification as an integer.  The embedding takes [number] at its
    integer values, as [Z].  [Greeting] subtracts exactly; this is what the
    code computes as long as the operands and the result are safe integers
    (magnitude at most 2^53 - 1), which holds for every year a [Date] can
    show, -271821 to 275760, and every birth year of magnitude at most
    2^53 - 1 - 275760.  [GreetingIEEE] is the same view with the difference
    rounded to the nearest double, as the code rounds it whatever the
    magnitude; the two agree on the range above.  [JS.ToString] writes
    plain decimal digits, which is what the code shows for every safe
    integer.

    The clock: [new Date()] is a reading of the host's clock, a time value in
    milliseconds; [getFullYear] is the host's calendar (it depends on the
    host's time zone), and is a parameter of the development. *)

From Stdlib Require Import ZArith String Ascii List Bool Lia.
From Stdlib Require Import Decimal DecimalString DecimalZ.
Import ListNotations.

Open Scope Z_scope.
Open Scope string_scope.

(** ** The JavaScript values the two files use *)

Module JS.

(** [number], at its integer values (the specification types [birthYear]
    as an integer; fractions, NaN and the infinities are not covered). *)
Definition number := Z.

(** [Number::toString] on an integer: its decimal digits, with a leading
    [-] when it is negative; this is how a number child of a [Text] is
    turned into text.  It is what the code shows for every safe integer;
    from 1e21 on the code writes an exponent instead, which this
    definition does not cover. *)
Definition ToString (n : number) : string :=
  NilEmpty.string_of_int (Z.to_int n).

(** Every character of [s] satisfies [p]. *)
Fixpoint all_chars (p : ascii -> bool) (s : string) : bool :=
  match s with
  | EmptyString => true
  | String c s' => p c && all_chars p s'
  end.

(** The characters [ToString] writes for an integer: the ten digits and the
    sign. *)
Definition is_digit (c : ascii) : bool :=
  let n := nat_of_ascii c in (48 <=? n)%nat && (n <=? 57)%nat.

Definition is_sign (c : ascii) : bool := Ascii.eqb c "-".

Definition is_numeral_char (c : ascii) : bool := is_digit c || is_sign c.

(** [Number.MAX_SAFE_INTEGER], 2^53 - 1: up to this magnitude every
    integer is a double and doubles are subtracted exactly. *)
Definition MAX_SAFE_INTEGER : number := 9007199254740991.

(** The years a valid [Date] can show: its time value is at most 8.64e15
    milliseconds from the epoch, whatever the time zone. *)
Definition is_date_year (y : number) : bool :=
  ((-271821 <=? y) && (y <=? 275760))%Z.

(** The birth years whose difference with any year of a [Date] is a safe
    integer. *)
Definition is_safe_birth_year (b : number) : bool :=
  (Z.abs b <=? MAX_SAFE_INTEGER - 275760)%Z.

(** The double nearest to an integer [x], ties to the even significand
    (the rounding of IEEE arithmetic), for magnitudes below 2^1024: below
    2^53 it is [x]; above, [x] keeps its 53 leading bits. *)
Definition binary64_round (x : Z) : Z :=
  let m := Z.abs x in
  if (m <? 2 ^ 53)%Z then x
  else
    let e := Z.log2 m - 52 in
    let q := m / 2 ^ e in
    let r := m mod 2 ^ e in
    let half := 2 ^ (e - 1) in
    let q' := if (r <? half)%Z then q
              else if (half <? r)%Z then q + 1
              else if Z.even q then q else q + 1 in
    Z.sgn x * (q' * 2 ^ e).

(** [a - b] on doubles of integer value: the exact difference, rounded
    once. *)
Definition sub (a b : number) : number := binary64_round (a - b).

(** A [Date] object: its time value, milliseconds since the epoch. *)
Record Date := { timeValue : Z }.

End JS.

(** ** React Native: styles and elements *)

Module RN.

(** The value of a style attribute. *)
Inductive style_value :=
| SNum (n : JS.number)
| SStr (s : string).

(** A style object: its attributes, in source order. *)
Definition style := list (string * style_value).

(** The [style] prop: one style object, or an array of them. *)
Inductive style_prop :=
| StyleObj (s : style)
| StyleArr (ss : list style).

(** A child of a [Text]: a string, or the value of a numeric expression. *)
Inductive node :=
| NStr (s : string)
| NNum (n : JS.number).

End RN.

(** [interface GreetingProps] *)
Record GreetingProps := { name : string; birthYear : JS.number }.

Module Element.
Import RN.

(** React elements: the host elements of the two files, and the element of
    the [Greeting] component, which carries its props until the framework
    renders it. *)
#[warnings="-register-all"]
Inductive element :=
| View (st : style_prop) (children : list element)
| Text (st : style_prop) (children : list node)
| StatusBar (st : string)
| GreetingElement (props : GreetingProps).

(** The text a child of a [Text] contributes. *)
Definition node_text (c : node) : string :=
  match c with
  | NStr s => s
  | NNum n => JS.ToString n
  end.

(** The text a [Text] shows: its children's texts, joined. *)
Definition text_content (cs : list node) : string :=
  fold_right (fun c acc => node_text c ++ acc) "" cs.

(** The numeric children of a [Text], in order. *)
Fixpoint numbers (cs : list node) : list JS.number :=
  match cs with
  | [] => []
  | NStr _ :: cs' => numbers cs'
  | NNum n :: cs' => n :: numbers cs'
  end.

(** The [Text] elements of a tree, in document order: each as its list of
    children. *)
Fixpoint texts (e : element) : list (list node) :=
  match e with
  | View _ cs => flat_map texts cs
  | Text _ cs => [cs]
  | StatusBar _ => []
  | GreetingElement _ => []
  end.

(** The text lines a tree shows, one per [Text], in document order. *)
Definition text_lines (e : element) : list string :=
  map text_content (texts e).

(** The props of the [Greeting] elements of a tree, in document order. *)
Fixpoint greeting_inputs (e : element) : list GreetingProps :=
  match e with
  | View _ cs => flat_map greeting_inputs cs
  | GreetingElement p => [p]
  | Text _ _ => []
  | StatusBar _ => []
  end.

End Element.

(** ** A sample host calendar

    The year of a time value in UTC (proleptic Gregorian calendar), by the
    days-to-civil computation over 400-year eras.  It is one possible
    [getFullYear], used to run the development on concrete clock readings. *)

Module UTC.

Definition msPerDay : Z := 86400000.

Definition Day (t : Z) : Z := t / msPerDay.

Definition year_of_day (d : Z) : Z :=
  let z := d + 719468 in
  let era := z / 146097 in
  let doe := z - era * 146097 in
  let yoe := (doe - doe / 1460 + doe / 36524 - doe / 146096) / 365 in
  let doy := doe - (365 * yoe + yoe / 4 - yoe / 100) in
  let mp := (5 * doy + 2) / 153 in
  let y := yoe + era * 400 in
  if Z.ltb mp 10 then y else y + 1.

Definition getFullYear (d : JS.Date) : JS.number :=
  year_of_day (Day (JS.timeValue d)).

End UTC.

(** ** src/components/Greeting.tsx *)

Module GreetingStyles.
Import RN.

Definition wrapper : style := [("paddingHorizontal", SNum 10)].

Definition textStyle : style :=
  [("fontSize", SNum 42); ("color", SStr "#ffffff"); ("fontWeight", SStr "900")].

Definition ageTextStyle : style :=
  [("marginTop", SNum 20); ("fontSize", SNum 18); ("fontWeight", SStr "600")].

End GreetingStyles.

Module AppStyles.
Import RN.

Definition container : style :=
  [("flex", SNum 1); ("backgroundColor", SStr "#2C7687");
   ("alignItems", SStr "center"); ("justifyContent", SStr "center")].

End AppStyles.

Section Host.
Import RN Element.

(** The host's calendar: [Date.prototype.getFullYear]. *)
Variable getFullYear : JS.Date -> JS.number.

(** [const Greeting: FC<GreetingProps> = ({ name, birthYear }) => ...],
    run when the clock reads [now]. *)
Definition Greeting (now : JS.Date) (props : GreetingProps) : element :=
  let currentYear := getFullYear now in
  let age := currentYear - birthYear props in
  View (StyleObj GreetingStyles.wrapper)
    [ Text (StyleObj GreetingStyles.textStyle)
        [NStr "Hello, "; NStr (name props)];
      Text (StyleObj GreetingStyles.textStyle)
        [NStr "Nice to meet you!"];
      Text (StyleArr [GreetingStyles.textStyle; GreetingStyles.ageTextStyle])
        [NStr "Now "; NNum currentYear; NStr " and you become ";
         NNum age; NStr " years old."] ].

(** The same component, with the difference of line 11 computed as the
    code computes it on doubles: rounded to the nearest double. *)
Definition GreetingIEEE (now : JS.Date) (props : GreetingProps) : element :=
  let currentYear := getFullYear now in
  let age := JS.sub currentYear (birthYear props) in
  View (StyleObj GreetingStyles.wrapper)
    [ Text (StyleObj GreetingStyles.textStyle)
        [NStr "Hello, "; NStr (name props)];
      Text (StyleObj GreetingStyles.textStyle)
        [NStr "Nice to meet you!"];
      Text (StyleArr [GreetingStyles.textStyle; GreetingStyles.ageTextStyle])
        [NStr "Now "; NNum currentYear; NStr " and you become ";
         NNum age; NStr " years old."] ].

(** ** App.tsx *)

(** [export default function App()] *)
Definition App (_ : unit) : element :=
  View (StyleObj AppStyles.container)
    [ GreetingElement {| name := "Jane"; birthYear := 1995 |};
      StatusBar "light" ].

(** ** The framework's render pass

    One pass, at clock reading [now]: every component element is replaced
    by what its component returns for its props. *)
Fixpoint render (now : JS.Date) (e : element) : element :=
  match e with
  | View st cs => View st (map (render now) cs)
  | GreetingElement p => Greeting now p
  | Text st cs => Text st cs
  | StatusBar st => StatusBar st
  end.

(** What the screen shows after the pass that mounts or updates the root
    view at clock reading [now]. *)
Definition render_root (now : JS.Date) : element := render now (App tt).

(** The passes of a life cycle, one per clock reading: the mount first,
    then the re-renders. *)
Definition lifecycle (clock : list JS.Date) : list element :=
  map render_root clock.

(** The third line as the source template writes it, for a year and an
    age. *)
Definition age_line (year age : JS.number) : string :=
  "Now " ++ JS.ToString year ++ " and you become " ++ JS.ToString age
    ++ " years old.".

End Host.

(** * Properties *)

(** ** Numerals *)

Section Numerals.

Lemma append_empty_r (s : string) : s ++ "" = s.
Proof. induction s as [|c s IH]; simpl; [reflexivity | now rewrite IH]. Qed.

Lemma uint_numeral_chars (d : uint) :
  JS.all_chars JS.is_digit (NilEmpty.string_of_uint d) = true.
Proof. induction d; simpl; auto. Qed.

Lemma all_chars_weaken (p q : ascii -> bool) (s : string) :
  (forall c, p c = true -> q c = true) ->
  JS.all_chars p s = true -> JS.all_chars q s = true.
Proof.
  intros Hpq. induction s as [|c s IH]; simpl; [reflexivity|].
  rewrite !andb_true_iff. intros [Hc Hs]. split; auto.
Qed.

Lemma digit_is_numeral (c : ascii) :
  JS.is_digit c = true -> JS.is_numeral_char c = true.
Proof. unfold JS.is_numeral_char. intros ->. reflexivity. Qed.

(** [ToString] writes digits and the sign, nothing else. *)
Lemma ToString_chars (n : JS.number) :
  JS.all_chars JS.is_numeral_char (JS.ToString n) = true.
Proof.
  unfold JS.ToString. destruct (Z.to_int n) as [d|d]; simpl.
  - apply all_chars_weaken with (p := JS.is_digit);
      [exact digit_is_numeral | apply uint_numeral_chars].
  - apply all_chars_weaken with (p := JS.is_digit);
      [exact digit_is_numeral | apply uint_numeral_chars].
Qed.

(** Two integers with the same numeral are equal. *)
Lemma ToString_inj (m n : JS.number) :
  JS.ToString m = JS.ToString n -> m = n.
Proof.
  unfold JS.ToString. intros H.
  apply DecimalZ.to_int_inj.
  assert (E : Some (Z.to_int m) = Some (Z.to_int n)).
  { rewrite <- (NilEmpty.isi (Z.to_int m)), <- (NilEmpty.isi (Z.to_int n)).
    now rewrite H. }
  now injection E.
Qed.

(** A numeral ends at the first character that is not a digit or a sign:
    what is read before it and what follows it are both determined. *)
Lemma numeral_prefix_unique (c : ascii) (s s' r r' : string) :
  JS.is_numeral_char c = false ->
  JS.all_chars JS.is_numeral_char s = true ->
  JS.all_chars JS.is_numeral_char s' = true ->
  s ++ String c r = s' ++ String c r' ->
  s = s' /\ r = r'.
Proof.
  intros Hc. revert s'.
  induction s as [|a s IH]; intros [|a' s']; simpl.
  - intros _ _ E. injection E as E. auto.
  - rewrite andb_true_iff. intros _ [Ha' _] E. injection E as E _.
    subst a'. congruence.
  - rewrite andb_true_iff. intros [Ha _] _ E. injection E as E _.
    subst a. congruence.
  - rewrite !andb_true_iff. intros [_ Hs] [_ Hs'] E.
    injection E as Ea E. subst a'.
    destruct (IH s' Hs Hs' E) as [-> ->]. auto.
Qed.

(** A negative integer is written with the sign, then the numeral of its
    magnitude. *)
Lemma ToString_negative (n : JS.number) :
  n < 0 -> JS.ToString n = String "-" (JS.ToString (- n)).
Proof.
  destruct n as [|p|p]; try lia. intros _. reflexivity.
Qed.

(** The numeral of a non-negative integer has no sign. *)
Lemma ToString_nonnegative (n : JS.number) :
  0 <= n -> JS.all_chars JS.is_digit (JS.ToString n) = true.
Proof.
  destruct n as [|p|p]; try lia; intros _.
  - reflexivity.
  - unfold JS.ToString. simpl. apply uint_numeral_chars.
Qed.

(** The third line determines the year and the age it displays. *)
Lemma age_line_inj (y a y' a' : JS.number) :
  age_line y a = age_line y' a' -> y = y' /\ a = a'.
Proof.
  unfold age_line. intros E. simpl in E.
  injection E as E.
  apply numeral_prefix_unique in E;
    [| reflexivity | apply ToString_chars | apply ToString_chars].
  destruct E as [Ey E]. apply ToString_inj in Ey.
  simpl in E. injection E as E.
  apply numeral_prefix_unique in E;
    [| reflexivity | apply ToString_chars | apply ToString_chars].
  destruct E as [Ea _]. apply ToString_inj in Ea.
  auto.
Qed.

(** Safe integers are doubles: rounding leaves them as they are. *)
Lemma binary64_round_safe (x : Z) :
  Z.abs x <= JS.MAX_SAFE_INTEGER -> JS.binary64_round x = x.
Proof.
  intros Hx. unfold JS.binary64_round. cbv zeta.
  destruct (Z.ltb_spec (Z.abs x) (2 ^ 53)) as [_|Hge]; [reflexivity|].
  unfold JS.MAX_SAFE_INTEGER in Hx.
  change (2 ^ 53) with 9007199254740992 in Hge. lia.
Qed.

(** The difference of a year of a [Date] and a safe birth year is a safe
    integer. *)
Lemma safe_difference (y b : JS.number) :
  JS.is_date_year y = true -> JS.is_safe_birth_year b = true ->
  Z.abs (y - b) <= JS.MAX_SAFE_INTEGER.
Proof.
  unfold JS.is_date_year, JS.is_safe_birth_year, JS.MAX_SAFE_INTEGER.
  rewrite andb_true_iff, !Z.leb_le. lia.
Qed.

(** On that range the subtraction of doubles is the subtraction of
    integers. *)
Lemma sub_safe (y b : JS.number) :
  JS.is_date_year y = true -> JS.is_safe_birth_year b = true ->
  JS.sub y b = y - b.
Proof.
  intros Hy Hb. unfold JS.sub.
  apply binary64_round_safe, safe_difference; assumption.
Qed.

(** Rounding keeps the sign of a negative integer: the nearest double of
    a negative integer is negative. *)
Lemma binary64_round_negative (x : Z) :
  x < 0 -> JS.binary64_round x < 0.
Proof.
  intros Hx. unfold JS.binary64_round. cbv zeta.
  destruct (Z.ltb_spec (Z.abs x) (2 ^ 53)) as [_|Hge]; [exact Hx|].
  rewrite (Z.sgn_neg x Hx).
  set (m := Z.abs x) in *. set (e := Z.log2 m - 52).
  assert (Hm : 0 < m) by (change (2 ^ 53) with 9007199254740992 in Hge; lia).
  assert (Hlog : 53 <= Z.log2 m).
  { rewrite <- (Z.log2_pow2 53) by lia. apply Z.log2_le_mono. exact Hge. }
  assert (He : 0 < 2 ^ e) by (apply Z.pow_pos_nonneg; unfold e; lia).
  assert (Hle : 2 ^ e <= m).
  { transitivity (2 ^ Z.log2 m).
    - apply Z.pow_le_mono_r; unfold e; lia.
    - apply Z.log2_spec. exact Hm. }
  assert (Hq : 1 <= m / 2 ^ e).
  { apply Z.div_le_lower_bound; lia. }
  assert (Hq' : 1 <= (if m mod 2 ^ e <? 2 ^ (e - 1) then m / 2 ^ e
                      else if 2 ^ (e - 1) <? m mod 2 ^ e then m / 2 ^ e + 1
                      else if Z.even (m / 2 ^ e) then m / 2 ^ e
                      else m / 2 ^ e + 1)%Z).
  { repeat match goal with |- context [if ?c then _ else _] =>
             destruct c end; lia. }
  nia.
Qed.

End Numerals.

(** ** The Greeting view *)

Section GreetingView.
Import RN Element.

Variable getFullYear : JS.Date -> JS.number.

(** The children of the three [Text] elements, as the source writes them. *)
Lemma Greeting_texts (now : JS.Date) (p : GreetingProps) :
  texts (Greeting getFullYear now p)
  = [ [NStr "Hello, "; NStr (name p)];
      [NStr "Nice to meet you!"];
      [NStr "Now "; NNum (getFullYear now); NStr " and you become ";
       NNum (getFullYear now - birthYear p); NStr " years old."] ].
Proof. reflexivity. Qed.

(** The three lines the view shows. *)
Lemma Greeting_lines (now : JS.Date) (p : GreetingProps) :
  text_lines (Greeting getFullYear now p)
  = [ "Hello, " ++ name p;
      "Nice to meet you!";
      age_line (getFullYear now) (getFullYear now - birthYear p) ].
Proof.
  unfold text_lines. rewrite Greeting_texts.
  unfold age_line. cbn [map text_content fold_right node_text].
  rewrite !append_empty_r. reflexivity.
Qed.

(** The view is made of host elements only: a render pass leaves what it
    returns as it is. *)
Lemma Greeting_is_rendered (now now' : JS.Date) (p : GreetingProps) :
  render getFullYear now' (Greeting getFullYear now p)
  = Greeting getFullYear now p.
Proof. reflexivity. Qed.

(** On the safe range the view computed with doubles is the view computed
    with integers. *)
Lemma GreetingIEEE_safe (now : JS.Date) (p : GreetingProps) :
  JS.is_date_year (getFullYear now) = true ->
  JS.is_safe_birth_year (birthYear p) = true ->
  GreetingIEEE getFullYear now p = Greeting getFullYear now p.
Proof.
  intros Hy Hb. unfold GreetingIEEE, Greeting. cbv zeta.
  rewrite (sub_safe _ _ Hy Hb). reflexivity.
Qed.

(** C1 (amended): for every name, every clock whose year is a year of a
    [Date] (-271821 to 275760) and every integer birth year of magnitude at
    most 2^53 - 1 - 275760, the third line of the view, computed on doubles
    as the code computes it, is the source's sentence with the year read
    from the clock and, as the age, that year minus the birth year; and
    whatever age one reads back from that line is this difference. *)
Theorem C1_rendered_age_safe_range (now : JS.Date) (p : GreetingProps) :
  JS.is_date_year (getFullYear now) = true ->
  JS.is_safe_birth_year (birthYear p) = true ->
  let lines := text_lines (GreetingIEEE getFullYear now p) in
  nth_error lines 2
    = Some (age_line (getFullYear now) (getFullYear now - birthYear p))
  /\ forall y a : JS.number,
       nth_error lines 2 = Some (age_line y a) ->
       a = getFullYear now - birthYear p.
Proof.
  intros Hy Hb. cbv zeta.
  rewrite (GreetingIEEE_safe now p Hy Hb), Greeting_lines.
  cbn [nth_error]. split; [reflexivity|].
  intros y a E.
  assert (E' : age_line (getFullYear now) (getFullYear now - birthYear p)
               = age_line y a) by congruence.
  apply age_line_inj in E'. destruct E' as [_ Ea]. congruence.
Qed.

(** C2: with name "Jane", birth year 1995 and a clock in the year 2024, the
    view shows exactly the lines "Hello, Jane", "Nice to meet you!" and
    "Now 2024 and you become 29 years old." *)
Theorem C2_scenario_jane (now : JS.Date) :
  getFullYear now = 2024 ->
  text_lines (Greeting getFullYear now {| name := "Jane"; birthYear := 1995 |})
  = [ "Hello, Jane";
      "Nice to meet you!";
      "Now 2024 and you become 29 years old." ].
Proof.
  intros Hy. rewrite Greeting_lines, Hy. reflexivity.
Qed.

(** C3: two renders of the view with the same name and birth year, at two
    clock readings that fall in the same year, return the same tree and show
    the same lines. *)
Theorem C3_same_year_same_output (now1 now2 : JS.Date) (p : GreetingProps) :
  getFullYear now1 = getFullYear now2 ->
  Greeting getFullYear now1 p = Greeting getFullYear now2 p
  /\ text_lines (Greeting getFullYear now1 p)
     = text_lines (Greeting getFullYear now2 p).
Proof.
  intros Hy. unfold Greeting. rewrite Hy. split; reflexivity.
Qed.


(** C5: when the birth year is the year of the clock, the age is 0 and the
    third line reads "... and you become 0 years old." *)
Theorem C5_birth_year_is_current_year (now : JS.Date) (p : GreetingProps) :
  birthYear p = getFullYear now ->
  option_map numbers (nth_error (texts (Greeting getFullYear now p)) 2)
    = Some [getFullYear now; 0]
  /\ nth_error (text_lines (Greeting getFullYear now p)) 2
     = Some ("Now " ++ JS.ToString (getFullYear now)
               ++ " and you become 0 years old.").
Proof.
  intros Hb. rewrite Greeting_lines, Greeting_texts, Hb, Z.sub_diag.
  split; reflexivity.
Qed.

(** C6: with the empty name, birth year 2000 and a clock in the year 2024,
    the first line is "Hello, " and the third line shows the age 24. *)
Theorem C6_scenario_empty_name (now : JS.Date) :
  getFullYear now = 2024 ->
  text_lines (Greeting getFullYear now {| name := ""; birthYear := 2000 |})
  = [ "Hello, ";
      "Nice to meet you!";
      "Now 2024 and you become 24 years old." ].
Proof.
  intros Hy. rewrite Greeting_lines, Hy. reflexivity.
Qed.


(** C9 (amended): for every clock whose year is a year of a [Date] and
    every birth year of magnitude at most 2^53 - 1 - 275760, the third line
    of the view, computed on doubles as the code computes it, is the
    source's sentence for some year and age, and whichever year and age one
    reads from it, the year is the one the clock gave and the year minus
    the age is the birth year. *)
Theorem C9_year_minus_age_safe_range (now : JS.Date) (p : GreetingProps) :
  JS.is_date_year (getFullYear now) = true ->
  JS.is_safe_birth_year (birthYear p) = true ->
  let line := nth_error (text_lines (GreetingIEEE getFullYear now p)) 2 in
  (exists y a : JS.number, line = Some (age_line y a))
  /\ forall y a : JS.number,
       line = Some (age_line y a) ->
       y = getFullYear now /\ y - a = birthYear p.
Proof.
  intros Hy Hb. cbv zeta.
  rewrite (GreetingIEEE_safe now p Hy Hb), Greeting_lines.
  cbn [nth_error]. split.
  - exists (getFullYear now), (getFullYear now - birthYear p). reflexivity.
  - intros y a E.
    assert (E' : age_line (getFullYear now) (getFullYear now - birthYear p)
                 = age_line y a) by congruence.
    apply age_line_inj in E'. destruct E' as [Ey Ea]. subst y a.
    split; [reflexivity | lia].
Qed.

(** C10: two renders in the same year that differ only in the name agree
    on the second and third lines; two renders that differ only in the birth
    year agree on the first and second lines. *)
Theorem C10_inputs_reach_one_line_each :
  (forall (now1 now2 : JS.Date) (name1 name2 : string) (b : JS.number),
      getFullYear now1 = getFullYear now2 ->
      skipn 1 (text_lines (Greeting getFullYear now1
                             {| name := name1; birthYear := b |}))
      = skipn 1 (text_lines (Greeting getFullYear now2
                               {| name := name2; birthYear := b |})))
  /\ (forall (now1 now2 : JS.Date) (n : string) (b1 b2 : JS.number),
        firstn 2 (text_lines (Greeting getFullYear now1
                                {| name := n; birthYear := b1 |}))
        = firstn 2 (text_lines (Greeting getFullYear now2
                                  {| name := n; birthYear := b2 |}))).
Proof.
  split.
  - intros now1 now2 name1 name2 b Hy.
    rewrite !Greeting_lines. cbn [skipn birthYear]. now rewrite Hy.
  - intros now1 now2 n b1 b2.
    rewrite !Greeting_lines. reflexivity.
Qed.

End GreetingView.

(** ** The root view *)

Section RootView.
Import RN Element.

Variable getFullYear : JS.Date -> JS.number.

(** The root view holds one component element and one host element; a
    render pass replaces the former by the Greeting view's tree. *)
Lemma render_root_unfold (now : JS.Date) :
  render_root getFullYear now
  = View (StyleObj AppStyles.container)
      [ Greeting getFullYear now {| name := "Jane"; birthYear := 1995 |};
        StatusBar "light" ].
Proof. reflexivity. Qed.

(** C7: whatever the clock readings of the mount and of the re-renders,
    the root view's tree has one Greeting element, with name "Jane" and
    birth year 1995, and every pass shows, inside the container, the
    Greeting view rendered with these two values. *)
Theorem C7_root_view_fixed_input (clock : list JS.Date) :
  greeting_inputs (App tt) = [ {| name := "Jane"; birthYear := 1995 |} ]
  /\ Forall2
       (fun now out =>
          out = View (StyleObj AppStyles.container)
                  [ Greeting getFullYear now
                      {| name := "Jane"; birthYear := 1995 |};
                    StatusBar "light" ]
          /\ text_lines out
             = text_lines (Greeting getFullYear now
                             {| name := "Jane"; birthYear := 1995 |}))
       clock (lifecycle getFullYear clock).
Proof.
  split; [reflexivity|].
  induction clock as [|now clock IH]; simpl.
  - constructor.
  - constructor; [|exact IH].
    rewrite render_root_unfold. split; [reflexivity|].
    unfold text_lines. cbn [texts flat_map].
    now rewrite app_nil_r.
Qed.

End RootView.

(** ** Further properties of the two views *)

Section ViewsFurther.
Import RN Element.

Variable getFullYear : JS.Date -> JS.number.

(** The third line of the view, for any input. *)
Lemma Greeting_third_line (now : JS.Date) (p : GreetingProps) :
  nth_error (text_lines (Greeting getFullYear now p)) 2
  = Some (age_line (getFullYear now) (getFullYear now - birthYear p)).
Proof. rewrite Greeting_lines. reflexivity. Qed.

(** The root view shows what the Greeting view shows for its fixed input:
    the status bar adds no line. *)
Lemma render_root_lines (now : JS.Date) :
  text_lines (render_root getFullYear now)
  = text_lines (Greeting getFullYear now
                  {| name := "Jane"; birthYear := 1995 |}).
Proof.
  rewrite render_root_unfold. unfold text_lines.
  cbn [texts flat_map]. now rewrite app_nil_r.
Qed.

(** A numeral that starts with the sign is the numeral of a negative
    integer. *)
Lemma ToString_sign_negative (n : JS.number) (s : string) :
  JS.ToString n = String "-" s -> n < 0.
Proof.
  intros E. destruct (Z.lt_ge_cases n 0) as [Hn|Hn]; [exact Hn|].
  pose proof (ToString_nonnegative n Hn) as Hd.
  rewrite E in Hd. discriminate Hd.
Qed.

(** The third line of the view computed on doubles, on the safe range. *)
Lemma GreetingIEEE_third_line (now : JS.Date) (p : GreetingProps) :
  JS.is_date_year (getFullYear now) = true ->
  JS.is_safe_birth_year (birthYear p) = true ->
  nth_error (text_lines (GreetingIEEE getFullYear now p)) 2
  = Some (age_line (getFullYear now) (getFullYear now - birthYear p)).
Proof.
  intros Hy Hb. rewrite (GreetingIEEE_safe _ now p Hy Hb).
  apply Greeting_third_line.
Qed.

(** X1: for clocks whose year is a year of a [Date] and birth years of
    magnitude at most 2^53 - 1 - 275760, two renders of the Greeting view,
    computed on doubles as the code computes it, show the same lines
    exactly when their clock readings fall in the same year and their
    names and birth years are the same: the text on screen determines the
    name, the birth year and the year of the clock. *)
Theorem X1_lines_determine_inputs
    (now1 now2 : JS.Date) (p1 p2 : GreetingProps) :
  JS.is_date_year (getFullYear now1) = true ->
  JS.is_safe_birth_year (birthYear p1) = true ->
  JS.is_date_year (getFullYear now2) = true ->
  JS.is_safe_birth_year (birthYear p2) = true ->
  text_lines (GreetingIEEE getFullYear now1 p1)
  = text_lines (GreetingIEEE getFullYear now2 p2)
  <-> getFullYear now1 = getFullYear now2 /\ p1 = p2.
Proof.
  intros Hy1 Hb1 Hy2 Hb2.
  rewrite (GreetingIEEE_safe _ now1 p1 Hy1 Hb1).
  rewrite (GreetingIEEE_safe _ now2 p2 Hy2 Hb2).
  split.
  - intros E.
    pose proof (f_equal (fun l => nth_error l 0) E) as E0.
    pose proof (f_equal (fun l => nth_error l 2) E) as E2.
    cbv beta in E0, E2.
    rewrite !Greeting_third_line in E2.
    rewrite !Greeting_lines in E0. cbn [nth_error] in E0.
    assert (En : name p1 = name p2).
    { assert (E0' : "Hello, " ++ name p1 = "Hello, " ++ name p2)
        by congruence.
      simpl in E0'. congruence. }
    assert (E2' : age_line (getFullYear now1)
                    (getFullYear now1 - birthYear p1)
                  = age_line (getFullYear now2)
                      (getFullYear now2 - birthYear p2)) by congruence.
    apply age_line_inj in E2'. destruct E2' as [Ey Ea].
    split; [exact Ey|].
    destruct p1 as [n1 b1], p2 as [n2 b2]. simpl in *.
    f_equal; [exact En | lia].
  - intros [Ey ->]. rewrite !Greeting_lines, Ey. reflexivity.
Qed.

(** X2: for a clock whose year is a year of a [Date] and a birth year of
    magnitude at most 2^53 - 1 - 275760, in the third line of the view,
    computed on doubles as the code computes it, the age is written with a
    minus sign exactly when the birth year is after the year of the clock,
    and with digits only exactly when it is not: the view neither drops
    the sign of a negative age nor shows a sign otherwise. *)
Theorem X2_minus_sign_iff_future_birth_year
    (now : JS.Date) (p : GreetingProps) :
  JS.is_date_year (getFullYear now) = true ->
  JS.is_safe_birth_year (birthYear p) = true ->
  let age := getFullYear now - birthYear p in
  nth_error (text_lines (GreetingIEEE getFullYear now p)) 2
  = Some ("Now " ++ JS.ToString (getFullYear now) ++ " and you become "
            ++ JS.ToString age ++ " years old.")
  /\ ((exists s : string, JS.ToString age = String "-" s)
      <-> getFullYear now < birthYear p)
  /\ (JS.all_chars JS.is_digit (JS.ToString age) = true
      <-> birthYear p <= getFullYear now).
Proof.
  intros Hy Hb. cbv zeta.
  split; [apply (GreetingIEEE_third_line now p Hy Hb)|]. split; split.
  - intros [s E]. apply ToString_sign_negative in E. lia.
  - intros Hlt. eexists. apply ToString_negative. lia.
  - intros Hd.
    destruct (Z.lt_ge_cases (getFullYear now) (birthYear p)) as [Hlt|Hge];
      [|lia].
    rewrite ToString_negative in Hd by lia. discriminate Hd.
  - intros Hle. apply ToString_nonnegative. lia.
Qed.

(** X3: for clocks whose year is a year of a [Date] and birth years of
    magnitude at most 2^53 - 1 - 275760, the ages read from the third lines
    of two renders, computed on doubles as the code computes them, differ
    by the difference of the years shown minus the difference of the birth
    years: the same person is shown one year older when the clock is one
    year later, and of two people rendered in the same year the one born
    [d] years earlier is shown [d] years older. *)
Theorem X3_age_difference
    (now1 now2 : JS.Date) (p1 p2 : GreetingProps)
    (y1 a1 y2 a2 : JS.number) :
  JS.is_date_year (getFullYear now1) = true ->
  JS.is_safe_birth_year (birthYear p1) = true ->
  JS.is_date_year (getFullYear now2) = true ->
  JS.is_safe_birth_year (birthYear p2) = true ->
  nth_error (text_lines (GreetingIEEE getFullYear now1 p1)) 2
    = Some (age_line y1 a1) ->
  nth_error (text_lines (GreetingIEEE getFullYear now2 p2)) 2
    = Some (age_line y2 a2) ->
  a2 - a1 = (y2 - y1) - (birthYear p2 - birthYear p1).
Proof.
  intros Hy1 Hb1 Hy2 Hb2.
  rewrite (GreetingIEEE_third_line now1 p1 Hy1 Hb1).
  rewrite (GreetingIEEE_third_line now2 p2 Hy2 Hb2).
  intros E1 E2.
  assert (E1' : age_line (getFullYear now1)
                  (getFullYear now1 - birthYear p1) = age_line y1 a1)
    by congruence.
  assert (E2' : age_line (getFullYear now2)
                  (getFullYear now2 - birthYear p2) = age_line y2 a2)
    by congruence.
  apply age_line_inj in E1', E2'.
  destruct E1' as [<- <-], E2' as [<- <-]. lia.
Qed.

(** X4: for every clock reading the root view shows three lines:
    "Hello, Jane", "Nice to meet you!", and the sentence with the year of
    the clock and that year minus 1995. *)
Theorem X4_root_view_lines (now : JS.Date) :
  text_lines (render_root getFullYear now)
  = [ "Hello, Jane";
      "Nice to meet you!";
      "Now " ++ JS.ToString (getFullYear now) ++ " and you become "
        ++ JS.ToString (getFullYear now - 1995) ++ " years old." ].
Proof.
  rewrite render_root_lines, Greeting_lines. reflexivity.
Qed.

(** X5: what the root view shows depends on the clock through its year
    only, and does depend on it: two passes show the same lines exactly
    when their clock readings fall in the same year. *)
Theorem X5_root_view_changes_with_the_year (now1 now2 : JS.Date) :
  text_lines (render_root getFullYear now1)
  = text_lines (render_root getFullYear now2)
  <-> getFullYear now1 = getFullYear now2.
Proof.
  rewrite !render_root_lines. split.
  - intros E.
    pose proof (f_equal (fun l => nth_error l 2) E) as E2.
    cbv beta in E2. rewrite !Greeting_third_line in E2.
    assert (E2' : age_line (getFullYear now1)
                    (getFullYear now1 - 1995)
                  = age_line (getFullYear now2)
                      (getFullYear now2 - 1995)) by (simpl in E2; congruence).
    apply age_line_inj in E2'. tauto.
  - intros Ey. rewrite !Greeting_lines, Ey. reflexivity.
Qed.

(** X6: whatever the magnitude of the birth year, when it is after the
    year of the clock the age the view computes on doubles, the second
    number child of its third [Text], is negative: rounding the difference
    never brings it to zero or above. *)
Theorem X6_future_birth_year_negative_age
    (now : JS.Date) (p : GreetingProps) :
  getFullYear now < birthYear p ->
  exists age : JS.number,
    option_map numbers
      (nth_error (texts (GreetingIEEE getFullYear now p)) 2)
    = Some [getFullYear now; age]
    /\ age < 0.
Proof.
  intros Hlt. exists (JS.sub (getFullYear now) (birthYear p)).
  split; [reflexivity|].
  unfold JS.sub. apply binary64_round_negative. lia.
Qed.

End ViewsFurther.

(** ** The claims at concrete clock readings

    The host calendar is the UTC one; the clock reads 1 June 2024, 00:00 UTC
    (time value 1717200000000), 31 December 2024, 23:59:59.999 UTC
    (time value 1735689599999), and 15 June 2025, 15:06:40 UTC (time value
    1750000000000). *)

Lemma C1_rendered_age_safe_range_witness :
  JS.is_date_year (UTC.getFullYear {| JS.timeValue := 1717200000000 |}) = true
  /\ JS.is_safe_birth_year 2030 = true
  /\ nth_error
       (Element.text_lines
          (GreetingIEEE UTC.getFullYear {| JS.timeValue := 1717200000000 |}
             {| name := "Sam"; birthYear := 2030 |})) 2
     = Some "Now 2024 and you become -6 years old."
  /\ -6 = UTC.getFullYear {| JS.timeValue := 1717200000000 |} - 2030.
Proof.
  split; [reflexivity|]. split; [reflexivity|].
  pose proof (C1_rendered_age_safe_range UTC.getFullYear
                {| JS.timeValue := 1717200000000 |}
                {| name := "Sam"; birthYear := 2030 |}
                eq_refl eq_refl) as [H1 H2].
  split; [exact H1 | apply (H2 2024 (-6)); reflexivity].
Defined.

(** C1 as stated, at birth year -2^53 and a clock in 2025: the code's
    difference is the double nearest to 2^53 + 2025, which is
    9007199254743016, and not the integer difference 9007199254743017. *)
Lemma C1_rendered_age_counterexample :
  UTC.getFullYear {| JS.timeValue := 1750000000000 |} = 2025
  /\ option_map Element.numbers
       (nth_error
          (Element.texts
             (GreetingIEEE UTC.getFullYear {| JS.timeValue := 1750000000000 |}
                {| name := "Jane"; birthYear := -9007199254740992 |})) 2)
     = Some [2025; 9007199254743016]
  /\ nth_error
       (Element.text_lines
          (GreetingIEEE UTC.getFullYear {| JS.timeValue := 1750000000000 |}
             {| name := "Jane"; birthYear := -9007199254740992 |})) 2
     = Some "Now 2025 and you become 9007199254743016 years old."
  /\ 9007199254743016
     <> UTC.getFullYear {| JS.timeValue := 1750000000000 |}
        - (-9007199254740992)
  /\ nth_error
       (Element.text_lines
          (GreetingIEEE UTC.getFullYear {| JS.timeValue := 1750000000000 |}
             {| name := "Jane"; birthYear := -9007199254740992 |})) 2
     <> Some (age_line
                (UTC.getFullYear {| JS.timeValue := 1750000000000 |})
                (UTC.getFullYear {| JS.timeValue := 1750000000000 |}
                 - (-9007199254740992))).
Proof.
  split; [reflexivity|]. split; [reflexivity|]. split; [reflexivity|].
  split.
  - intros E. vm_compute in E. discriminate E.
  - intros E. vm_compute in E. discriminate E.
Qed.

Lemma C2_scenario_jane_witness :
  UTC.getFullYear {| JS.timeValue := 1717200000000 |} = 2024
  /\ Element.text_lines
       (Greeting UTC.getFullYear {| JS.timeValue := 1717200000000 |}
          {| name := "Jane"; birthYear := 1995 |})
     = [ "Hello, Jane"; "Nice to meet you!";
         "Now 2024 and you become 29 years old." ].
Proof.
  split; [reflexivity | apply C2_scenario_jane; reflexivity].
Defined.

Lemma C3_same_year_same_output_witness :
  UTC.getFullYear {| JS.timeValue := 1717200000000 |}
  = UTC.getFullYear {| JS.timeValue := 1735689599999 |}
  /\ Element.text_lines
       (Greeting UTC.getFullYear {| JS.timeValue := 1717200000000 |}
          {| name := "Jane"; birthYear := 1995 |})
     = Element.text_lines
         (Greeting UTC.getFullYear {| JS.timeValue := 1735689599999 |}
            {| name := "Jane"; birthYear := 1995 |}).
Proof.
  split; [reflexivity | apply C3_same_year_same_output; reflexivity].
Defined.


Lemma C5_birth_year_is_current_year_witness :
  2024 = UTC.getFullYear {| JS.timeValue := 1717200000000 |}
  /\ nth_error
       (Element.text_lines
          (Greeting UTC.getFullYear {| JS.timeValue := 1717200000000 |}
             {| name := "Ada"; birthYear := 2024 |})) 2
     = Some "Now 2024 and you become 0 years old.".
Proof.
  split; [reflexivity|].
  apply (C5_birth_year_is_current_year UTC.getFullYear
           {| JS.timeValue := 1717200000000 |}
           {| name := "Ada"; birthYear := 2024 |}).
  reflexivity.
Defined.

Lemma C6_scenario_empty_name_witness :
  UTC.getFullYear {| JS.timeValue := 1717200000000 |} = 2024
  /\ Element.text_lines
       (Greeting UTC.getFullYear {| JS.timeValue := 1717200000000 |}
          {| name := ""; birthYear := 2000 |})
     = [ "Hello, "; "Nice to meet you!";
         "Now 2024 and you become 24 years old." ].
Proof.
  split; [reflexivity | apply C6_scenario_empty_name; reflexivity].
Defined.


Lemma C9_year_minus_age_safe_range_witness :
  JS.is_date_year (UTC.getFullYear {| JS.timeValue := 1717200000000 |}) = true
  /\ JS.is_safe_birth_year 1995 = true
  /\ nth_error
       (Element.text_lines
          (GreetingIEEE UTC.getFullYear {| JS.timeValue := 1717200000000 |}
             {| name := "Jane"; birthYear := 1995 |})) 2
     = Some (age_line 2024 29)
  /\ 2024 = UTC.getFullYear {| JS.timeValue := 1717200000000 |}
  /\ 2024 - 29 = birthYear {| name := "Jane"; birthYear := 1995 |}.
Proof.
  split; [reflexivity|]. split; [reflexivity|]. split; [reflexivity|].
  apply (proj2 (C9_year_minus_age_safe_range UTC.getFullYear
                  {| JS.timeValue := 1717200000000 |}
                  {| name := "Jane"; birthYear := 1995 |}
                  eq_refl eq_refl) 2024 29).
  reflexivity.
Defined.

(** C9 as stated, at birth year -2^53 and a clock in 2025: the line shows
    the year 2025 and the age 9007199254743016, and 2025 minus that age is
    -(2^53 - 1), not the birth year. *)
Lemma C9_year_minus_age_counterexample :
  UTC.getFullYear {| JS.timeValue := 1750000000000 |} = 2025
  /\ nth_error
       (Element.text_lines
          (GreetingIEEE UTC.getFullYear {| JS.timeValue := 1750000000000 |}
             {| name := "Sam"; birthYear := -9007199254740992 |})) 2
     = Some (age_line 2025 9007199254743016)
  /\ 2025 - 9007199254743016
     <> birthYear {| name := "Sam"; birthYear := -9007199254740992 |}.
Proof.
  split; [reflexivity|]. split; [reflexivity|].
  intros E. vm_compute in E. discriminate E.
Qed.

Lemma C10_inputs_reach_one_line_each_witness :
  skipn 1 (Element.text_lines
             (Greeting UTC.getFullYear {| JS.timeValue := 1717200000000 |}
                {| name := "Jane"; birthYear := 1995 |}))
  = skipn 1 (Element.text_lines
               (Greeting UTC.getFullYear {| JS.timeValue := 1735689599999 |}
                  {| name := "Sam"; birthYear := 1995 |})).
Proof.
  apply (proj1 (C10_inputs_reach_one_line_each UTC.getFullYear)).
  reflexivity.
Defined.

Lemma X1_lines_determine_inputs_witness :
  JS.is_date_year (UTC.getFullYear {| JS.timeValue := 1717200000000 |}) = true
  /\ JS.is_date_year (UTC.getFullYear {| JS.timeValue := 1735689599999 |})
     = true
  /\ JS.is_safe_birth_year 1995 = true
  /\ Element.text_lines
       (GreetingIEEE UTC.getFullYear {| JS.timeValue := 1717200000000 |}
          {| name := "Jane"; birthYear := 1995 |})
     = Element.text_lines
         (GreetingIEEE UTC.getFullYear {| JS.timeValue := 1735689599999 |}
            {| name := "Jane"; birthYear := 1995 |})
  /\ UTC.getFullYear {| JS.timeValue := 1717200000000 |}
     = UTC.getFullYear {| JS.timeValue := 1735689599999 |}.
Proof.
  split; [reflexivity|]. split; [reflexivity|]. split; [reflexivity|].
  split; [reflexivity|].
  apply (proj1 (X1_lines_determine_inputs UTC.getFullYear
                  {| JS.timeValue := 1717200000000 |}
                  {| JS.timeValue := 1735689599999 |}
                  {| name := "Jane"; birthYear := 1995 |}
                  {| name := "Jane"; birthYear := 1995 |}
                  eq_refl eq_refl eq_refl eq_refl)).
  reflexivity.
Defined.

Lemma X2_minus_sign_iff_future_birth_year_witness :
  JS.is_date_year (UTC.getFullYear {| JS.timeValue := 1717200000000 |}) = true
  /\ JS.is_safe_birth_year 2030 = true
  /\ nth_error
       (Element.text_lines
          (GreetingIEEE UTC.getFullYear {| JS.timeValue := 1717200000000 |}
             {| name := "Sam"; birthYear := 2030 |})) 2
     = Some "Now 2024 and you become -6 years old."
  /\ exists s : string,
       JS.ToString (UTC.getFullYear {| JS.timeValue := 1717200000000 |} - 2030)
       = String "-" s.
Proof.
  split; [reflexivity|]. split; [reflexivity|].
  destruct (X2_minus_sign_iff_future_birth_year UTC.getFullYear
              {| JS.timeValue := 1717200000000 |}
              {| name := "Sam"; birthYear := 2030 |}
              eq_refl eq_refl) as (Hline & Hsign & _).
  split; [exact Hline|].
  apply (proj2 Hsign). reflexivity.
Defined.

Lemma X3_age_difference_witness :
  JS.is_date_year (UTC.getFullYear {| JS.timeValue := 1717200000000 |}) = true
  /\ JS.is_date_year (UTC.getFullYear {| JS.timeValue := 1750000000000 |})
     = true
  /\ JS.is_safe_birth_year 1995 = true
  /\ nth_error
       (Element.text_lines
          (GreetingIEEE UTC.getFullYear {| JS.timeValue := 1717200000000 |}
             {| name := "Jane"; birthYear := 1995 |})) 2
     = Some (age_line 2024 29)
  /\ nth_error
       (Element.text_lines
          (GreetingIEEE UTC.getFullYear {| JS.timeValue := 1750000000000 |}
             {| name := "Jane"; birthYear := 1995 |})) 2
     = Some (age_line 2025 30)
  /\ 30 - 29 = (2025 - 2024) - (1995 - 1995).
Proof.
  split; [reflexivity|]. split; [reflexivity|]. split; [reflexivity|].
  split; [reflexivity|]. split; [reflexivity|].
  apply (X3_age_difference UTC.getFullYear
           {| JS.timeValue := 1717200000000 |}
           {| JS.timeValue := 1750000000000 |}
           {| name := "Jane"; birthYear := 1995 |}
           {| name := "Jane"; birthYear := 1995 |}
           2024 29 2025 30 eq_refl eq_refl eq_refl eq_refl);
    reflexivity.
Defined.

Lemma X6_future_birth_year_negative_age_witness :
  UTC.getFullYear {| JS.timeValue := 1750000000000 |} < 18014398509481984
  /\ option_map Element.numbers
       (nth_error
          (Element.texts
             (GreetingIEEE UTC.getFullYear {| JS.timeValue := 1750000000000 |}
                {| name := "Sam"; birthYear := 18014398509481984 |})) 2)
     = Some [2025; -18014398509479960]
  /\ exists age : JS.number,
       option_map Element.numbers
         (nth_error
            (Element.texts
               (GreetingIEEE UTC.getFullYear
                  {| JS.timeValue := 1750000000000 |}
                  {| name := "Sam"; birthYear := 18014398509481984 |})) 2)
       = Some [UTC.getFullYear {| JS.timeValue := 1750000000000 |}; age]
       /\ age < 0.
Proof.
  split; [reflexivity|]. split; [reflexivity|].
  apply (X6_future_birth_year_negative_age UTC.getFullYear
           {| JS.timeValue := 1750000000000 |}
           {| name := "Sam"; birthYear := 18014398509481984 |}).
  reflexivity.
Defined.

(** ** Runs of the embedding *)

Example utc_epoch : UTC.getFullYear {| JS.timeValue := 0 |} = 1970.
Proof. reflexivity. Qed.
Example utc_before_epoch : UTC.getFullYear {| JS.timeValue := -1 |} = 1969.
Proof. reflexivity. Qed.
Example utc_2023_end : UTC.getFullYear {| JS.timeValue := 1704067199999 |} = 2023.
Proof. reflexivity. Qed.
Example utc_2024_start : UTC.getFullYear {| JS.timeValue := 1704067200000 |} = 2024.
Proof. reflexivity. Qed.
Example utc_2024_leap_day : UTC.getFullYear {| JS.timeValue := 1709164800000 |} = 2024.
Proof. reflexivity. Qed.
Example utc_2024_end : UTC.getFullYear {| JS.timeValue := 1735689599999 |} = 2024.
Proof. reflexivity. Qed.
Example lines_jane :
  Element.text_lines (Greeting UTC.getFullYear {| JS.timeValue := 1717200000000 |}
                        {| name := "Jane"; birthYear := 1995 |})
  = ["Hello, Jane"; "Nice to meet you!"; "Now 2024 and you become 29 years old."].
Proof. reflexivity. Qed.
Example lines_sam :
  Element.text_lines (Greeting UTC.getFullYear {| JS.timeValue := 1717200000000 |}
                        {| name := "Sam"; birthYear := 2030 |})
  = ["Hello, Sam"; "Nice to meet you!"; "Now 2024 and you become -6 years old."].
Proof. reflexivity. Qed.
Example root_lines :
  Element.text_lines (render_root UTC.getFullYear {| JS.timeValue := 1717200000000 |})
  = ["Hello, Jane"; "Nice to meet you!"; "Now 2024 and you become 29 years old."].
Proof. reflexivity. Qed.
Example utc_2025_mid : UTC.getFullYear {| JS.timeValue := 1750000000000 |} = 2025.
Proof. reflexivity. Qed.
Example round_safe_integer : JS.binary64_round 9007199254740991 = 9007199254740991.
Proof. reflexivity. Qed.
Example round_tie_to_even_down : JS.binary64_round 9007199254740993 = 9007199254740992.
Proof. reflexivity. Qed.
Example round_tie_to_even_up : JS.binary64_round 9007199254740995 = 9007199254740996.
Proof. reflexivity. Qed.
Example round_nearest_of_four : JS.binary64_round 18014398509484007 = 18014398509484008.
Proof. reflexivity. Qed.
Example sub_rounds_up : JS.sub 2025 18014398509481984 = -18014398509479960.
Proof. reflexivity. Qed.
Example sub_same_age_for_two_birth_years :
  JS.sub 2025 (-9007199254740992) = JS.sub 2025 (-9007199254740991).
Proof. reflexivity. Qed.
